(** * Device configuration of the Norn ESP32 fall-detection sensor

    A shallow embedding of [arduino/norn_sensor/record_data/config.h].  The
    header is a list of preprocessor directives: an include guard around
    fifteen object-like macros.  The macro table a translation unit sees is a
    finite map from macro names to replacement tokens; the firmware reads the
    configuration by expanding the macros. *)

From Stdlib Require Import ZArith String Ascii Lia.
From stdpp Require Import base option gmap strings list fin_maps.

Local Open Scope string_scope.

(** ** Preprocessor tokens and directives *)

(** The replacement list of a macro of this header: a string literal, an
    integer literal, or nothing at all (the guard macro). *)
Inductive token : Type :=
  | TText (s : string)
  | TInt (z : Z)
  | TEmpty.

(** The three directives the header uses. *)
Inductive directive : Type :=
  | Ifndef (m : string)
  | Define (m : string) (body : token)
  | Endif.

(** What can go wrong between the header and a populated record.  Every
    error about a macro carries the name of that macro, and a validation
    error the names of the offending fields. *)
Inductive ConfigError : Type :=
  | UnbalancedEndif
  | UnterminatedConditional
  | Undefined (m : string)
  | NotText (m : string)
  | NotInteger (m : string)
  | Redefined (m : string)
  | Invalid (fields : list string).

#[global] Instance token_eq_dec : EqDecision token.
Proof. solve_decision. Defined.

(** ** A small error monad *)

Inductive result (A : Type) : Type :=
  | Ok (a : A)
  | Err (e : ConfigError).
Arguments Ok {A} a.
Arguments Err {A} e.

#[global] Instance result_ret : MRet result := fun _ a => Ok a.
#[global] Instance result_bind : MBind result := fun _ _ f r =>
  match r with
  | Ok a => f a
  | Err e => Err e
  end.
#[global] Instance result_fmap : FMap result := fun _ _ f r =>
  match r with
  | Ok a => Ok (f a)
  | Err e => Err e
  end.

Definition is_ok {A : Type} (r : result A) : bool :=
  match r with
  | Ok _ => true
  | Err _ => false
  end.

(** ** config.h *)

Module Header.

(** The header, directive by directive, comments and blank lines dropped. *)
Definition config_h : list directive :=
  [ Ifndef "CONFIG_H";
    Define "CONFIG_H" TEmpty;
    Define "WIFI_SSID" (TText "YOUR_WIFI_SSID");
    Define "WIFI_PASSWORD" (TText "YOUR_WIFI_PASSWORD");
    Define "BACKEND_HOST" (TText "192.168.1.100");
    Define "BACKEND_PORT" (TText "8000");
    Define "BACKEND_ENDPOINT" (TText "/api/v1/sensor/data");
    Define "SENSOR_RX_PIN" (TInt 4);
    Define "SENSOR_TX_PIN" (TInt 5);
    Define "SENSOR_BAUD_RATE" (TInt 115200);
    Define "FALL_INSTALL_HEIGHT" (TInt 270);
    Define "FALL_TIME_THRESHOLD" (TInt 5);
    Define "FALL_UNMANNED_TIME" (TInt 1);
    Define "FALL_RESIDENCE_TIME" (TInt 200);
    Define "FALL_SENSITIVITY" (TInt 3);
    Define "DATA_SEND_INTERVAL" (TInt 1000);
    Define "HTTP_SERVER_PORT" (TInt 80);
    Endif ].

End Header.

(** ** The preprocessor *)

Module Cpp.

(** The preprocessor as the GCC of the Arduino tool chain runs it by
    default: defining a macro that is defined already draws a warning at
    most, and the new replacement list takes the place of the old one.
    [Strict] below is the preprocessor that refuses such a redefinition.

    The state is the macro table, the number of open conditionals whose
    group is being kept, and the number of open conditionals being
    skipped. *)
Record state : Type := mkState {
  macros : gmap string token;
  active : nat;
  skipped : nat
}.

Definition directive_step (st : state) (d : directive) : result state :=
  match d with
  | Ifndef m =>
      match skipped st with
      | S _ => Ok (mkState (macros st) (active st) (S (skipped st)))
      | O =>
          match macros st !! m with
          | Some _ => Ok (mkState (macros st) (active st) 1)
          | None => Ok (mkState (macros st) (S (active st)) 0)
          end
      end
  | Define m body =>
      match skipped st with
      | S _ => Ok st
      | O => Ok (mkState (<[m := body]> (macros st)) (active st) 0)
      end
  | Endif =>
      match skipped st with
      | S k => Ok (mkState (macros st) (active st) k)
      | O =>
          match active st with
          | S k => Ok (mkState (macros st) k 0)
          | O => Err UnbalancedEndif
          end
      end
  end.

Fixpoint preprocess (ds : list directive) (st : state) : result state :=
  match ds with
  | [] => Ok st
  | d :: ds' => st' ← directive_step st d; preprocess ds' st'
  end.

(** [#include] of a header whose directives are [h], on top of the macro
    table [env]. *)
Definition include (h : list directive) (env : gmap string token)
  : result (gmap string token) :=
  st ← preprocess h (mkState env 0 0);
  match active st, skipped st with
  | O, O => Ok (macros st)
  | _, _ => Err UnterminatedConditional
  end.

(** Expansion of an object-like macro where a string is expected. *)
Definition text_macro (m : string) (env : gmap string token) : result string :=
  match env !! m with
  | Some (TText s) => Ok s
  | Some _ => Err (NotText m)
  | None => Err (Undefined m)
  end.

(** Expansion of an object-like macro where an integer is expected. *)
Definition int_macro (m : string) (env : gmap string token) : result Z :=
  match env !! m with
  | Some (TInt z) => Ok z
  | Some _ => Err (NotInteger m)
  | None => Err (Undefined m)
  end.

End Cpp.

(** ** The preprocessor with redefinitions refused *)

Module Strict.

(** As [Cpp.directive_step], but a macro may be defined again only with the
    replacement list it has already: any other redefinition is an error
    that names the macro (the language rule; GCC under -Werror or
    -pedantic-errors). *)
Definition directive_step (st : Cpp.state) (d : directive)
  : result Cpp.state :=
  match d with
  | Define m body =>
      match Cpp.skipped st with
      | S _ => Ok st
      | O =>
          match Cpp.macros st !! m with
          | Some old =>
              if decide (old = body) then Ok st else Err (Redefined m)
          | None =>
              Ok (Cpp.mkState (<[m := body]> (Cpp.macros st))
                    (Cpp.active st) 0)
          end
      end
  | Ifndef _ | Endif => Cpp.directive_step st d
  end.

Fixpoint preprocess (ds : list directive) (st : Cpp.state)
  : result Cpp.state :=
  match ds with
  | [] => Ok st
  | d :: ds' => st' ← directive_step st d; preprocess ds' st'
  end.

Definition include (h : list directive) (env : gmap string token)
  : result (gmap string token) :=
  st ← preprocess h (Cpp.mkState env 0 0);
  match Cpp.active st, Cpp.skipped st with
  | O, O => Ok (Cpp.macros st)
  | _, _ => Err UnterminatedConditional
  end.

End Strict.

(** The macro table of a translation unit that includes only config.h. *)
Definition compiled : result (gmap string token) :=
  Cpp.include Header.config_h ∅.

(** The same table, empty should the inclusion fail. *)
Definition macro_table : gmap string token :=
  match compiled with
  | Ok env => env
  | Err _ => ∅
  end.

Definition text_of (m : string) : result string :=
  env ← compiled; Cpp.text_macro m env.

Definition int_of (m : string) : result Z :=
  env ← compiled; Cpp.int_macro m env.

(** ** The configuration record and its provider *)

(** Modelled from the spec: the DeviceConfig record of the data model.
    config.h has no struct, only the fifteen macros; the record has one
    field per macro, under the field names of the spec. *)
Record DeviceConfig : Type := mkDeviceConfig {
  wifiSsid : string;
  wifiPassword : string;
  backendHost : string;
  backendPort : string;
  backendEndpoint : string;
  sensorRxPin : Z;
  sensorTxPin : Z;
  sensorBaudRate : Z;
  fallInstallHeightCm : Z;
  fallTimeThresholdSec : Z;
  fallUnmannedTimeSec : Z;
  fallResidenceTimeSec : Z;
  fallSensitivity : Z;
  dataSendIntervalMs : Z;
  httpServerPort : Z
}.

(** The macros behind the documented fields, in the order of the header. *)
Definition documented_macros : list string :=
  [ "WIFI_SSID"; "WIFI_PASSWORD"; "BACKEND_HOST"; "BACKEND_PORT";
    "BACKEND_ENDPOINT"; "SENSOR_RX_PIN"; "SENSOR_TX_PIN"; "SENSOR_BAUD_RATE";
    "FALL_INSTALL_HEIGHT"; "FALL_TIME_THRESHOLD"; "FALL_UNMANNED_TIME";
    "FALL_RESIDENCE_TIME"; "FALL_SENSITIVITY"; "DATA_SEND_INTERVAL";
    "HTTP_SERVER_PORT" ].

(** Modelled from the spec: the "get configuration" accessor of the
    DeviceConfig provider, which config.h does not contain.  It expands each
    macro once and packs the expansions into the record. *)
Definition get_configuration (env : gmap string token) : result DeviceConfig :=
  ssid ← Cpp.text_macro "WIFI_SSID" env;
  password ← Cpp.text_macro "WIFI_PASSWORD" env;
  host ← Cpp.text_macro "BACKEND_HOST" env;
  port ← Cpp.text_macro "BACKEND_PORT" env;
  endpoint ← Cpp.text_macro "BACKEND_ENDPOINT" env;
  rx ← Cpp.int_macro "SENSOR_RX_PIN" env;
  tx ← Cpp.int_macro "SENSOR_TX_PIN" env;
  baud ← Cpp.int_macro "SENSOR_BAUD_RATE" env;
  height ← Cpp.int_macro "FALL_INSTALL_HEIGHT" env;
  threshold ← Cpp.int_macro "FALL_TIME_THRESHOLD" env;
  unmanned ← Cpp.int_macro "FALL_UNMANNED_TIME" env;
  residence ← Cpp.int_macro "FALL_RESIDENCE_TIME" env;
  sensitivity ← Cpp.int_macro "FALL_SENSITIVITY" env;
  interval ← Cpp.int_macro "DATA_SEND_INTERVAL" env;
  http ← Cpp.int_macro "HTTP_SERVER_PORT" env;
  Ok (mkDeviceConfig ssid password host port endpoint rx tx baud height
        threshold unmanned residence sensitivity interval http).

Module Header_template.

(** "Copy this file and update with your actual values": config.h with the
    values of [c] in place of the shipped ones. *)
Definition config_h_with (c : DeviceConfig) : list directive :=
  [ Ifndef "CONFIG_H";
    Define "CONFIG_H" TEmpty;
    Define "WIFI_SSID" (TText (wifiSsid c));
    Define "WIFI_PASSWORD" (TText (wifiPassword c));
    Define "BACKEND_HOST" (TText (backendHost c));
    Define "BACKEND_PORT" (TText (backendPort c));
    Define "BACKEND_ENDPOINT" (TText (backendEndpoint c));
    Define "SENSOR_RX_PIN" (TInt (sensorRxPin c));
    Define "SENSOR_TX_PIN" (TInt (sensorTxPin c));
    Define "SENSOR_BAUD_RATE" (TInt (sensorBaudRate c));
    Define "FALL_INSTALL_HEIGHT" (TInt (fallInstallHeightCm c));
    Define "FALL_TIME_THRESHOLD" (TInt (fallTimeThresholdSec c));
    Define "FALL_UNMANNED_TIME" (TInt (fallUnmannedTimeSec c));
    Define "FALL_RESIDENCE_TIME" (TInt (fallResidenceTimeSec c));
    Define "FALL_SENSITIVITY" (TInt (fallSensitivity c));
    Define "DATA_SEND_INTERVAL" (TInt (dataSendIntervalMs c));
    Define "HTTP_SERVER_PORT" (TInt (httpServerPort c));
    Endif ].

(** The values config.h ships with. *)
Definition shipped : DeviceConfig :=
  {| wifiSsid := "YOUR_WIFI_SSID";
     wifiPassword := "YOUR_WIFI_PASSWORD";
     backendHost := "192.168.1.100";
     backendPort := "8000";
     backendEndpoint := "/api/v1/sensor/data";
     sensorRxPin := 4;
     sensorTxPin := 5;
     sensorBaudRate := 115200;
     fallInstallHeightCm := 270;
     fallTimeThresholdSec := 5;
     fallUnmannedTimeSec := 1;
     fallResidenceTimeSec := 200;
     fallSensitivity := 3;
     dataSendIntervalMs := 1000;
     httpServerPort := 80 |}.

(** A copy of the header in which only FALL_SENSITIVITY was edited. *)
Definition with_sensitivity (s : Z) (c : DeviceConfig) : DeviceConfig :=
  {| wifiSsid := wifiSsid c;
     wifiPassword := wifiPassword c;
     backendHost := backendHost c;
     backendPort := backendPort c;
     backendEndpoint := backendEndpoint c;
     sensorRxPin := sensorRxPin c;
     sensorTxPin := sensorTxPin c;
     sensorBaudRate := sensorBaudRate c;
     fallInstallHeightCm := fallInstallHeightCm c;
     fallTimeThresholdSec := fallTimeThresholdSec c;
     fallUnmannedTimeSec := fallUnmannedTimeSec c;
     fallResidenceTimeSec := fallResidenceTimeSec c;
     fallSensitivity := s;
     dataSendIntervalMs := dataSendIntervalMs c;
     httpServerPort := httpServerPort c |}.

End Header_template.

(** Initialization: the edited header is included into an empty macro table
    and the record is read from the macros. *)
Definition initialize (c : DeviceConfig) : result DeviceConfig :=
  env ← Cpp.include (Header_template.config_h_with c) ∅;
  get_configuration env.

(** ** The component after initialization *)

(** What can happen to the macro table after the first inclusion: the
    accessor is called, or config.h is included once more (the include guard
    is there for that). *)
Inductive operation : Type :=
  | GetConfiguration
  | IncludeAgain.

Definition step (env : gmap string token) (o : operation)
  : result (gmap string token * option DeviceConfig) :=
  match o with
  | GetConfiguration => c ← get_configuration env; Ok (env, Some c)
  | IncludeAgain => env' ← Cpp.include Header.config_h env; Ok (env', None)
  end.

Fixpoint run (t : list operation) (env : gmap string token)
  : result (gmap string token) :=
  match t with
  | [] => Ok env
  | o :: t' => r ← step env o; run t' (fst r)
  end.

(** The macro table after the first inclusion followed by the trace [t]. *)
Definition state_after (t : list operation) : result (gmap string token) :=
  env ← compiled; run t env.

(** The record a call of the accessor returns after the trace [t]. *)
Definition read_after (t : list operation) : result DeviceConfig :=
  env ← state_after t; get_configuration env.

(** ** Reading a port given as text *)

Definition digit_of_ascii (a : ascii) : option Z :=
  let n := Z.of_N (N_of_ascii a) in
  if ((48 <=? n) && (n <=? 57))%Z then Some (n - 48)%Z else None.

Fixpoint decimal_from (acc : Z) (s : string) : option Z :=
  match s with
  | EmptyString => Some acc
  | String a s' =>
      match digit_of_ascii a with
      | Some d => decimal_from (10 * acc + d) s'
      | None => None
      end
  end.

(** The decimal reading of a non-empty string of digits. *)
Definition decimal (s : string) : option Z :=
  match s with
  | EmptyString => None
  | _ => decimal_from 0 s
  end.

(** ** Validation at start-up *)

Definition check (ok : bool) (field : string) : list string :=
  if ok then [] else [field].

Definition port_in_range (p : Z) : bool := ((1 <=? p) && (p <=? 65535))%Z.

(** Modelled from the spec: the validation step run once at start-up, which
    config.h does not contain (the spec recommends it as an addition).  It
    checks what the spec lists: non-empty credentials, port values in
    1..65535, an endpoint that starts with "/", sensitivity in 1..5 and
    positive durations; the result names every offending field. *)
Definition validate (c : DeviceConfig) : list string :=
  check (bool_decide (wifiSsid c ≠ "")) "wifiSsid"
  ++ check (bool_decide (wifiPassword c ≠ "")) "wifiPassword"
  ++ check (match decimal (backendPort c) with
            | Some p => port_in_range p
            | None => false
            end) "backendPort"
  ++ check (String.prefix "/" (backendEndpoint c)) "backendEndpoint"
  ++ check (0 <? fallTimeThresholdSec c)%Z "fallTimeThresholdSec"
  ++ check (0 <? fallUnmannedTimeSec c)%Z "fallUnmannedTimeSec"
  ++ check (0 <? fallResidenceTimeSec c)%Z "fallResidenceTimeSec"
  ++ check ((1 <=? fallSensitivity c) && (fallSensitivity c <=? 5))%Z
       "fallSensitivity"
  ++ check (0 <? dataSendIntervalMs c)%Z "dataSendIntervalMs"
  ++ check (port_in_range (httpServerPort c)) "httpServerPort".

(** Modelled from the spec: initialization with the validation step
    switched on or off.  With validation enabled an invalid record is not
    handed out: initialization fails with a configuration error that names
    the offending fields. *)
Definition initialize_validated (validation : bool) (c : DeviceConfig)
  : result DeviceConfig :=
  c' ← initialize c;
  if validation then
    match validate c' with
    | [] => Ok c'
    | fields => Err (Invalid fields)
    end
  else Ok c'.

Definition is_define (d : directive) : bool :=
  match d with
  | Define _ _ => true
  | Ifndef _ | Endif => false
  end.

(** The macro names a list of directives defines, in order. *)
Definition defined_names (ds : list directive) : list string :=
  flat_map (λ d, match d with Define m _ => [m] | _ => [] end) ds.

(** ** The shape of the header *)

(** A header whose directives [ds] sit inside an include guard on [g]. *)
Definition guarded (g : string) (ds : list directive) : list directive :=
  Ifndef g :: Define g TEmpty :: ds ++ [Endif].

(** The directives between the two guard lines and the closing [#endif]. *)
Definition guarded_body (h : list directive) : list directive :=
  removelast (tail (tail h)).

(** The macro table after the definitions of [ds], taken in order; a later
    definition of a name replaces an earlier one. *)
Fixpoint define_all (ds : list directive) (env : gmap string token)
  : gmap string token :=
  match ds with
  | [] => env
  | Define m body :: ds' => define_all ds' (<[m := body]> env)
  | _ :: ds' => define_all ds' env
  end.

(** A copy of config.h filled in for a deployment. *)
Definition home_deployment : DeviceConfig :=
  {| wifiSsid := "Home";
     wifiPassword := "correct horse";
     backendHost := "10.0.0.2";
     backendPort := "8000";
     backendEndpoint := "/api/v1/sensor/data";
     sensorRxPin := 16;
     sensorTxPin := 17;
     sensorBaudRate := 115200;
     fallInstallHeightCm := 250;
     fallTimeThresholdSec := 5;
     fallUnmannedTimeSec := 1;
     fallResidenceTimeSec := 200;
     fallSensitivity := 2;
     dataSendIntervalMs := 500;
     httpServerPort := 8080 |}.

(** * Properties *)

Example decimal_8000 : decimal "8000" = Some 8000%Z.
Proof. reflexivity. Qed.

Example decimal_rejects_letters : decimal "80a" = None.
Proof. reflexivity. Qed.

Example decimal_rejects_empty : decimal "" = None.
Proof. reflexivity. Qed.

Example shipped_is_config_h :
  Header_template.config_h_with Header_template.shipped = Header.config_h.
Proof. reflexivity. Qed.

Example int_of_sensitivity : int_of "FALL_SENSITIVITY" = Ok 3%Z.
Proof. vm_compute. reflexivity. Qed.

Example text_of_wrong_kind : text_of "HTTP_SERVER_PORT" = Err (NotText "HTTP_SERVER_PORT").
Proof. vm_compute. reflexivity. Qed.

Example int_of_unknown : int_of "LED_PIN" = Err (Undefined "LED_PIN").
Proof. vm_compute. reflexivity. Qed.

Example stray_endif : Cpp.include [Endif] ∅ = Err UnbalancedEndif.
Proof. reflexivity. Qed.

Example missing_endif : Cpp.include [Ifndef "A"] ∅ = Err UnterminatedConditional.
Proof. reflexivity. Qed.

Example default_redefinition :
  Cpp.include [Define "A" (TInt 1); Define "A" (TInt 2)] ∅
  = Ok {["A" := TInt 2]}.
Proof. vm_compute. reflexivity. Qed.

Example strict_redefinition :
  Strict.include [Define "A" (TInt 1); Define "A" (TInt 2)] ∅
  = Err (Redefined "A").
Proof. vm_compute. reflexivity. Qed.

Example strict_same_definition_again :
  Strict.include [Define "A" (TInt 1); Define "A" (TInt 1)] ∅
  = Ok {["A" := TInt 1]}.
Proof. vm_compute. reflexivity. Qed.

Example validate_reports_every_offender :
  validate
    (mkDeviceConfig "" "secret" "10.0.0.2" "70000" "api" 4 5 115200 270 5 1
       200 0 1000 80)
  = ["wifiSsid"; "backendPort"; "backendEndpoint"; "fallSensitivity"].
Proof. vm_compute. reflexivity. Qed.

(** config.h defines the guard and the fifteen documented macros, each of
    them once: no definition overrides an earlier one. *)
Lemma config_h_defines_once :
  defined_names Header.config_h = "CONFIG_H" :: documented_macros
  ∧ NoDup (defined_names Header.config_h).
Proof.
  split; [reflexivity|].
  apply (bool_decide_unpack (NoDup (defined_names Header.config_h))).
  vm_compute. exact I.
Qed.

(** ** The include guard *)

Section Guard.

Import Cpp.

(** Inside a skipped group, definitions leave the state alone. *)
Lemma preprocess_skip_defines (ds rest : list directive)
    (env : gmap string token) (a k : nat) :
  forallb is_define ds = true →
  preprocess (ds ++ rest) (mkState env a (S k))
  = preprocess rest (mkState env a (S k)).
Proof.
  induction ds as [|d ds IH]; intros Hds; [reflexivity|].
  apply andb_prop in Hds as [Hd Hds].
  destruct d as [m|m body|]; try discriminate Hd.
  cbn [app preprocess directive_step skipped mbind result_bind].
  apply IH, Hds.
Qed.

(** Once CONFIG_H is defined, including config.h changes nothing. *)
Lemma include_guarded (env : gmap string token) :
  is_Some (env !! "CONFIG_H") → include Header.config_h env = Ok env.
Proof.
  intros [v Hv]. unfold include.
  replace Header.config_h
    with (Ifndef "CONFIG_H" :: removelast (tail Header.config_h) ++ [Endif])
    by reflexivity.
  cbn [preprocess directive_step skipped macros active mbind result_bind].
  rewrite Hv. cbn [mbind result_bind].
  rewrite preprocess_skip_defines by reflexivity.
  reflexivity.
Qed.

End Guard.

(** The first inclusion succeeds, defines the guard and every documented
    macro, and the accessor reads the shipped values from it. *)
Lemma compiled_succeeds : is_ok compiled = true.
Proof. vm_compute. reflexivity. Qed.

Lemma compiled_ok : compiled = Ok macro_table.
Proof.
  pose proof compiled_succeeds as H. unfold macro_table.
  destruct compiled; [reflexivity | discriminate H].
Qed.

Lemma macro_table_guard : macro_table !! "CONFIG_H" = Some TEmpty.
Proof. vm_compute. reflexivity. Qed.

Lemma macro_table_shipped :
  get_configuration macro_table = Ok Header_template.shipped.
Proof. vm_compute. reflexivity. Qed.

Lemma macro_table_documented :
  Forall (λ m, is_Some (macro_table !! m)) documented_macros.
Proof. repeat constructor; vm_compute; eauto. Qed.

(** No operation changes a macro table in which the guard is defined and the
    accessor succeeds. *)
Lemma run_unchanged (t : list operation) (env : gmap string token) :
  is_Some (env !! "CONFIG_H") →
  (∃ c, get_configuration env = Ok c) →
  run t env = Ok env.
Proof.
  intros Hguard [c Hc].
  induction t as [|o t IH]; [reflexivity|].
  destruct o; cbn [run step].
  - rewrite Hc. exact IH.
  - rewrite (include_guarded env Hguard). exact IH.
Qed.

Lemma state_after_compiled (t : list operation) : state_after t = compiled.
Proof.
  unfold state_after. rewrite compiled_ok. cbn [mbind result_bind].
  apply run_unchanged.
  - rewrite macro_table_guard. eauto.
  - rewrite macro_table_shipped. eauto.
Qed.

Lemma read_after_shipped (t : list operation) :
  read_after t = Ok Header_template.shipped.
Proof.
  unfold read_after. rewrite state_after_compiled, compiled_ok.
  exact macro_table_shipped.
Qed.

Lemma initialize_roundtrip (c : DeviceConfig) : initialize c = Ok c.
Proof. destruct c. vm_compute. reflexivity. Qed.

(** * The claims *)

(** C1. Round-trip identity of the provider: initialization from a copy of
    the header that holds the values of any record [c] returns exactly [c],
    and reading the configuration of config.h as shipped yields, field by
    field, precisely the constants of the header. *)
Theorem get_configuration_roundtrip :
  (∀ c : DeviceConfig, initialize c = Ok c)
  ∧ ∃ c : DeviceConfig,
      read_after [] = Ok c
      ∧ wifiSsid c = "YOUR_WIFI_SSID"
      ∧ wifiPassword c = "YOUR_WIFI_PASSWORD"
      ∧ backendHost c = "192.168.1.100"
      ∧ backendPort c = "8000"
      ∧ backendEndpoint c = "/api/v1/sensor/data"
      ∧ sensorRxPin c = 4%Z
      ∧ sensorTxPin c = 5%Z
      ∧ sensorBaudRate c = 115200%Z
      ∧ fallInstallHeightCm c = 270%Z
      ∧ fallTimeThresholdSec c = 5%Z
      ∧ fallUnmannedTimeSec c = 1%Z
      ∧ fallResidenceTimeSec c = 200%Z
      ∧ fallSensitivity c = 3%Z
      ∧ dataSendIntervalMs c = 1000%Z
      ∧ httpServerPort c = 80%Z.
Proof.
  split; [exact initialize_roundtrip|].
  exists Header_template.shipped.
  split; [apply read_after_shipped|].
  repeat split.
Qed.

(** C2. The configuration is immutable after initialization: after any two
    sequences of operations the macro table is the one the first inclusion
    produced, the accessor returns the same record, and so every field read
    at the two points gives equal values. *)
Theorem config_immutable (t1 t2 : list operation) :
  state_after t1 = compiled
  ∧ state_after t2 = compiled
  ∧ (∃ c, read_after t1 = Ok c ∧ read_after t2 = Ok c)
  ∧ ∀ (A : Type) (field : DeviceConfig → A),
      field <$> read_after t1 = field <$> read_after t2.
Proof.
  split; [apply state_after_compiled|].
  split; [apply state_after_compiled|].
  split.
  - exists Header_template.shipped.
    split; apply read_after_shipped.
  - intros A field. now rewrite !read_after_shipped.
Qed.

(** C3. The accessor takes no argument, never fails, leaves the macro table
    as it found it, and is deterministic: one and the same record is
    returned by every call, whatever happened before.  That record is fully
    populated: every documented macro is defined, and each of the fifteen
    fields holds the expansion of its macro. *)
Theorem get_configuration_total :
  ∃ c : DeviceConfig,
    (∀ t : list operation,
       ∃ env : gmap string token,
         state_after t = Ok env
         ∧ step env GetConfiguration = Ok (env, Some c)
         ∧ Forall (λ m, is_Some (env !! m)) documented_macros)
    ∧ text_of "WIFI_SSID" = Ok (wifiSsid c)
    ∧ text_of "WIFI_PASSWORD" = Ok (wifiPassword c)
    ∧ text_of "BACKEND_HOST" = Ok (backendHost c)
    ∧ text_of "BACKEND_PORT" = Ok (backendPort c)
    ∧ text_of "BACKEND_ENDPOINT" = Ok (backendEndpoint c)
    ∧ int_of "SENSOR_RX_PIN" = Ok (sensorRxPin c)
    ∧ int_of "SENSOR_TX_PIN" = Ok (sensorTxPin c)
    ∧ int_of "SENSOR_BAUD_RATE" = Ok (sensorBaudRate c)
    ∧ int_of "FALL_INSTALL_HEIGHT" = Ok (fallInstallHeightCm c)
    ∧ int_of "FALL_TIME_THRESHOLD" = Ok (fallTimeThresholdSec c)
    ∧ int_of "FALL_UNMANNED_TIME" = Ok (fallUnmannedTimeSec c)
    ∧ int_of "FALL_RESIDENCE_TIME" = Ok (fallResidenceTimeSec c)
    ∧ int_of "FALL_SENSITIVITY" = Ok (fallSensitivity c)
    ∧ int_of "DATA_SEND_INTERVAL" = Ok (dataSendIntervalMs c)
    ∧ int_of "HTTP_SERVER_PORT" = Ok (httpServerPort c).
Proof.
  exists Header_template.shipped. split.
  - intros t. exists macro_table.
    split; [rewrite state_after_compiled; apply compiled_ok|].
    split; [|apply macro_table_documented].
    cbn [step]. rewrite macro_table_shipped. reflexivity.
  - repeat split; vm_compute; reflexivity.
Qed.

(** ** Validation *)

Lemma elem_of_check (ok : bool) (field x : string) :
  x ∈ check ok field ↔ ok = false ∧ x = field.
Proof.
  destruct ok; cbn [check].
  - rewrite elem_of_nil. split; [tauto | intros [H _]; discriminate H].
  - rewrite list_elem_of_singleton. split; [tauto | intros [_ H]; exact H].
Qed.

(** Validation names fallSensitivity exactly when it lies outside 1..5. *)
Lemma validate_names_sensitivity (c : DeviceConfig) :
  "fallSensitivity" ∈ validate c ↔ ¬ (1 ≤ fallSensitivity c ≤ 5)%Z.
Proof.
  unfold validate. rewrite !elem_of_app, !elem_of_check.
  split.
  - intros H.
    repeat (destruct H as [[_ H] | H]; [discriminate H|]).
    destruct H as [[H _] | [[_ H] | [_ H]]]; [|discriminate H..].
    apply andb_false_iff in H as [H | H];
      [apply Z.leb_gt in H | apply Z.leb_gt in H]; lia.
  - intros H. do 7 right. left. split; [|reflexivity].
    apply andb_false_iff.
    destruct (Z.leb_spec 1 (fallSensitivity c)); [right | left; reflexivity].
    apply Z.leb_gt. lia.
Qed.

(** The values config.h ships with pass validation. *)
Lemma shipped_passes_validation :
  initialize_validated true Header_template.shipped
  = Ok Header_template.shipped.
Proof. vm_compute. reflexivity. Qed.

(** With validation switched off every record is handed out. *)
Lemma initialize_not_validated (c : DeviceConfig) :
  initialize_validated false c = Ok c.
Proof.
  unfold initialize_validated. now rewrite initialize_roundtrip.
Qed.

(** Validation enabled: a record is handed out exactly when no field
    offends, and the error lists the offending fields otherwise. *)
Lemma initialize_validated_enabled (c : DeviceConfig) :
  initialize_validated true c
  = match validate c with
    | [] => Ok c
    | fields => Err (Invalid fields)
    end.
Proof.
  unfold initialize_validated. now rewrite initialize_roundtrip.
Qed.

Example sensitivity_six_only_offender :
  initialize_validated true
    (Header_template.with_sensitivity 6 Header_template.shipped)
  = Err (Invalid ["fallSensitivity"]).
Proof. vm_compute. reflexivity. Qed.

(** C4. With validation enabled, initialization of a configuration whose
    fallSensitivity is 6 does not produce a record: it fails with a
    configuration error, and the error names fallSensitivity among the
    offending fields. *)
Theorem sensitivity_six_rejected (c : DeviceConfig) :
  fallSensitivity c = 6%Z →
  ∃ fields : list string,
    initialize_validated true c = Err (Invalid fields)
    ∧ "fallSensitivity" ∈ fields.
Proof.
  intros H.
  assert ("fallSensitivity" ∈ validate c) as Hin
    by (apply validate_names_sensitivity; lia).
  exists (validate c). split; [|exact Hin].
  rewrite initialize_validated_enabled.
  destruct (validate c) as [|f fs]; [|reflexivity].
  now apply elem_of_nil in Hin.
Qed.

(** C4 at the shipped header with only FALL_SENSITIVITY edited to 6. *)
Lemma sensitivity_six_rejected_witness :
  fallSensitivity (Header_template.with_sensitivity 6 Header_template.shipped)
  = 6%Z
  ∧ ∃ fields : list string,
      initialize_validated true
        (Header_template.with_sensitivity 6 Header_template.shipped)
      = Err (Invalid fields)
      ∧ "fallSensitivity" ∈ fields.
Proof.
  split; [reflexivity|].
  apply (sensitivity_six_rejected
           (Header_template.with_sensitivity 6 Header_template.shipped)).
  reflexivity.
Defined.

(** C5. FALL_SENSITIVITY expands to the integer 3, which lies in the
    inclusive range 1..5. *)
Theorem fall_sensitivity_in_range :
  ∃ v : Z, int_of "FALL_SENSITIVITY" = Ok v ∧ v = 3%Z ∧ (1 ≤ v ≤ 5)%Z.
Proof. exists 3%Z. split; [vm_compute; reflexivity|]. lia. Qed.

(** C6. Both ports lie in 1..65535: HTTP_SERVER_PORT as an integer, and
    BACKEND_PORT, a string, under its decimal reading. *)
Theorem ports_in_range :
  ∃ (http : Z) (port : string) (backend : Z),
    int_of "HTTP_SERVER_PORT" = Ok http
    ∧ (1 ≤ http ≤ 65535)%Z
    ∧ text_of "BACKEND_PORT" = Ok port
    ∧ decimal port = Some backend
    ∧ (1 ≤ backend ≤ 65535)%Z.
Proof.
  exists 80%Z, "8000", 8000%Z.
  split; [vm_compute; reflexivity|].
  split; [lia|].
  split; [vm_compute; reflexivity|].
  split; [reflexivity|lia].
Qed.

(** C7. BACKEND_ENDPOINT is a path that starts with "/". *)
Theorem backend_endpoint_starts_with_slash :
  ∃ path : string,
    text_of "BACKEND_ENDPOINT" = Ok path ∧ String.prefix "/" path = true.
Proof.
  exists "/api/v1/sensor/data".
  split; [vm_compute; reflexivity|reflexivity].
Qed.

(** C8. The six numeric tuning macros are strictly positive integers. *)
Theorem tuning_fields_positive :
  Forall (λ m, ∃ v : Z, int_of m = Ok v ∧ (0 < v)%Z)
    [ "SENSOR_BAUD_RATE"; "FALL_INSTALL_HEIGHT"; "FALL_TIME_THRESHOLD";
      "FALL_UNMANNED_TIME"; "FALL_RESIDENCE_TIME"; "DATA_SEND_INTERVAL" ].
Proof.
  repeat constructor;
    eexists; (split; [vm_compute; reflexivity|reflexivity]).
Qed.

(** C9. WIFI_SSID, WIFI_PASSWORD and BACKEND_HOST are non-empty strings. *)
Theorem text_fields_non_empty :
  Forall (λ m, ∃ s : string, text_of m = Ok s ∧ s ≠ "" ∧ (0 < String.length s)%nat)
    [ "WIFI_SSID"; "WIFI_PASSWORD"; "BACKEND_HOST" ].
Proof.
  repeat constructor;
    eexists; (split; [vm_compute; reflexivity|]);
    (split; [discriminate|cbn; lia]).
Qed.

(** C10. The UART pins are distinct and valid ESP32 GPIO numbers: the
    receive pin is 4, the transmit pin is 5, they differ, and both lie in
    0..39. *)
Theorem uart_pins_distinct_and_valid :
  ∃ rx tx : Z,
    int_of "SENSOR_RX_PIN" = Ok rx
    ∧ int_of "SENSOR_TX_PIN" = Ok tx
    ∧ rx = 4%Z ∧ tx = 5%Z
    ∧ rx ≠ tx
    ∧ (0 ≤ rx ≤ 39)%Z ∧ (0 ≤ tx ≤ 39)%Z.
Proof.
  exists 4%Z, 5%Z.
  split; [vm_compute; reflexivity|].
  split; [vm_compute; reflexivity|].
  repeat split; lia.
Qed.

(** * Inclusion in an arbitrary context *)

Section Guarded_headers.

Import Cpp.

(** Outside a skipped group, a run of definitions only updates the macro
    table. *)
Lemma preprocess_defines (ds rest : list directive)
    (env : gmap string token) (a : nat) :
  forallb is_define ds = true →
  preprocess (ds ++ rest) (mkState env a 0)
  = preprocess rest (mkState (define_all ds env) a 0).
Proof.
  revert env. induction ds as [|d ds IH]; intros env Hds; [reflexivity|].
  apply andb_prop in Hds as [Hd Hds].
  destruct d as [m|m body|]; try discriminate Hd.
  cbn [app preprocess directive_step skipped macros active mbind result_bind
       define_all].
  apply IH, Hds.
Qed.

Lemma define_all_union (ds : list directive) (m1 m2 : gmap string token) :
  define_all ds (m1 ∪ m2) = define_all ds m1 ∪ m2.
Proof.
  revert m1. induction ds as [|d ds IH]; intros m1; [reflexivity|].
  destruct d as [m|m body|]; cbn [define_all]; try apply IH.
  rewrite insert_union_l. apply IH.
Qed.

Lemma define_all_is_Some (ds : list directive) (env : gmap string token)
    (m : string) :
  is_Some (env !! m) → is_Some (define_all ds env !! m).
Proof.
  revert env. induction ds as [|d ds IH]; intros env Hm; [exact Hm|].
  destruct d as [g|g body|]; cbn [define_all]; try (apply IH, Hm).
  apply IH. rewrite lookup_insert_is_Some.
  destruct (decide (g = m)); [left|right]; done.
Qed.

Lemma define_all_other (ds : list directive) (env : gmap string token)
    (m : string) :
  m ∉ defined_names ds → define_all ds env !! m = env !! m.
Proof.
  revert env. induction ds as [|d ds IH]; intros env Hm; [reflexivity|].
  destruct d as [g|g body|]; cbn [define_all]; try (apply IH, Hm).
  cbn in Hm. apply not_elem_of_cons in Hm as [Hne Hm].
  rewrite (IH _ Hm). apply lookup_insert_ne. congruence.
Qed.

(** What including a guarded header does, whatever was defined before. *)
Lemma include_guarded_header (g : string) (ds : list directive)
    (env : gmap string token) :
  forallb is_define ds = true →
  include (guarded g ds) env
  = Ok (match env !! g with
        | Some _ => env
        | None => define_all ds (<[g := TEmpty]> env)
        end).
Proof.
  intros Hds. unfold include, guarded.
  cbn [preprocess directive_step skipped macros active mbind result_bind].
  destruct (env !! g) as [v|]; cbn [mbind result_bind skipped macros active].
  - rewrite preprocess_skip_defines by exact Hds. reflexivity.
  - rewrite preprocess_defines by exact Hds. reflexivity.
Qed.

End Guarded_headers.

Lemma config_h_guarded :
  Header.config_h = guarded "CONFIG_H" (guarded_body Header.config_h).
Proof. reflexivity. Qed.

Lemma config_h_with_guarded (c : DeviceConfig) :
  Header_template.config_h_with c
  = guarded "CONFIG_H" (guarded_body (Header_template.config_h_with c)).
Proof. reflexivity. Qed.

Lemma macro_table_defines :
  macro_table
  = define_all (guarded_body Header.config_h) (<["CONFIG_H" := TEmpty]> ∅).
Proof.
  pose proof compiled_ok as H. unfold compiled in H.
  rewrite config_h_guarded, include_guarded_header in H by reflexivity.
  rewrite lookup_empty in H. congruence.
Qed.

Lemma macro_table_other (m : string) :
  m ∉ defined_names Header.config_h → macro_table !! m = None.
Proof.
  intros Hm. cbn in Hm. apply not_elem_of_cons in Hm as [Hne Hm].
  rewrite macro_table_defines, define_all_other by exact Hm.
  rewrite lookup_insert_ne by congruence. apply lookup_empty.
Qed.

Lemma text_macro_union (m : string) (s : string) (A env : gmap string token) :
  Cpp.text_macro m A = Ok s → Cpp.text_macro m (A ∪ env) = Ok s.
Proof.
  unfold Cpp.text_macro. intros H.
  destruct (A !! m) as [v|] eqn:E; [|discriminate H].
  rewrite (lookup_union_Some_l A env m v E). exact H.
Qed.

Lemma int_macro_union (m : string) (z : Z) (A env : gmap string token) :
  Cpp.int_macro m A = Ok z → Cpp.int_macro m (A ∪ env) = Ok z.
Proof.
  unfold Cpp.int_macro. intros H.
  destruct (A !! m) as [v|] eqn:E; [|discriminate H].
  rewrite (lookup_union_Some_l A env m v E). exact H.
Qed.

(** A table that holds a full configuration still does after it is laid
    over any other table. *)
Lemma get_configuration_union (A env : gmap string token) (c : DeviceConfig) :
  get_configuration A = Ok c → get_configuration (A ∪ env) = Ok c.
Proof.
  unfold get_configuration. intros H.
  repeat match type of H with
    | context [Cpp.text_macro ?m A] =>
        let E := fresh "E" in
        destruct (Cpp.text_macro m A) eqn:E; [|discriminate H];
        rewrite (text_macro_union m _ A env E);
        cbn [mbind result_bind] in H |- *
    | context [Cpp.int_macro ?m A] =>
        let E := fresh "E" in
        destruct (Cpp.int_macro m A) eqn:E; [|discriminate H];
        rewrite (int_macro_union m _ A env E);
        cbn [mbind result_bind] in H |- *
    end.
  exact H.
Qed.

(** The table a filled-in copy of the header leaves behind when it is
    included where CONFIG_H is not defined yet. *)
Lemma include_config_h_with (c : DeviceConfig) (env : gmap string token) :
  env !! "CONFIG_H" = None →
  Cpp.include (Header_template.config_h_with c) env
  = Ok (define_all (guarded_body (Header_template.config_h_with c))
          (<["CONFIG_H" := TEmpty]> ∅) ∪ env).
Proof.
  intros Hg.
  rewrite config_h_with_guarded, include_guarded_header by reflexivity.
  rewrite Hg, <- define_all_union, <- insert_union_l.
  now rewrite (left_id_L ∅ (∪)).
Qed.

Lemma get_configuration_config_h_with (c : DeviceConfig)
    (env : gmap string token) :
  get_configuration
    (define_all (guarded_body (Header_template.config_h_with c))
       (<["CONFIG_H" := TEmpty]> ∅) ∪ env) = Ok c.
Proof.
  apply get_configuration_union.
  pose proof (initialize_roundtrip c) as H. unfold initialize in H.
  rewrite (include_config_h_with c ∅ (lookup_empty _)) in H.
  now rewrite (right_id_L ∅ (∪)) in H.
Qed.

Lemma filled_in_copy_reads_back_aux (c : DeviceConfig)
    (env : gmap string token) :
  env !! "CONFIG_H" = None →
  (Cpp.include (Header_template.config_h_with c) env ≫= get_configuration)
  = Ok c.
Proof.
  intros Hg. rewrite (include_config_h_with c env Hg).
  cbn [mbind result_bind]. apply get_configuration_config_h_with.
Qed.

(** What the default preprocessor makes of config.h: where CONFIG_H is
    already defined the macro table comes back as it was; elsewhere the
    table of the header is laid over the earlier one. *)
Lemma include_config_h_default (env : gmap string token) :
  Cpp.include Header.config_h env
  = Ok (match env !! "CONFIG_H" with
        | Some _ => env
        | None => macro_table ∪ env
        end).
Proof.
  rewrite config_h_guarded, include_guarded_header by reflexivity.
  destruct (env !! "CONFIG_H") as [v|]; [reflexivity|].
  rewrite macro_table_defines, <- define_all_union, <- insert_union_l.
  now rewrite (left_id_L ∅ (∪)).
Qed.

(** X2. Including config.h twice is the same as including it once, in any
    context. *)
Theorem include_config_h_idempotent (env : gmap string token) :
  (Cpp.include Header.config_h env ≫= Cpp.include Header.config_h)
  = Cpp.include Header.config_h env.
Proof.
  rewrite config_h_guarded, include_guarded_header by reflexivity.
  cbn [mbind result_bind].
  rewrite include_guarded_header by reflexivity.
  destruct (env !! "CONFIG_H") as [v|] eqn:Hg.
  - now rewrite Hg.
  - destruct (define_all_is_Some (guarded_body Header.config_h)
                (<["CONFIG_H" := TEmpty]> env) "CONFIG_H") as [w Hw].
    + rewrite lookup_insert_eq. eauto.
    + now rewrite Hw.
Qed.

(** X4. Including config.h never touches a macro that is not one of the
    names it defines: such a macro is defined afterwards exactly if it was
    before, with the same token. *)
Theorem include_keeps_other_macros (env : gmap string token) (m : string) :
  m ∉ defined_names Header.config_h →
  (λ env', env' !! m) <$> Cpp.include Header.config_h env = Ok (env !! m).
Proof.
  intros Hm. rewrite include_config_h_default.
  cbn [fmap result_fmap]. f_equal.
  destruct (env !! "CONFIG_H") as [v|]; [reflexivity|].
  apply lookup_union_r, macro_table_other, Hm.
Qed.

(** X4 at a context that defines LED_PIN. *)
Lemma include_keeps_other_macros_witness :
  ("LED_PIN" ∉ defined_names Header.config_h)
  ∧ (λ env', env' !! "LED_PIN")
      <$> Cpp.include Header.config_h {["LED_PIN" := TInt 2]}
    = Ok (({["LED_PIN" := TInt 2]} : gmap string token) !! "LED_PIN").
Proof.
  assert ("LED_PIN" ∉ defined_names Header.config_h) as Hm
    by (apply (bool_decide_unpack _); vm_compute; exact I).
  split; [exact Hm|].
  exact (include_keeps_other_macros _ _ Hm).
Defined.

(** X5. A context that already defines CONFIG_H switches the whole header
    off: a macro the context lacks is still undefined after the inclusion,
    and expanding it fails with an error that names it. *)
Theorem guard_collision_leaves_undefined
    (env : gmap string token) (m : string) :
  is_Some (env !! "CONFIG_H") →
  env !! m = None →
  (Cpp.include Header.config_h env ≫= Cpp.text_macro m) = Err (Undefined m)
  ∧ (Cpp.include Header.config_h env ≫= Cpp.int_macro m)
    = Err (Undefined m).
Proof.
  intros [v Hg] Hm. rewrite include_config_h_default, Hg.
  cbn [mbind result_bind]. unfold Cpp.text_macro, Cpp.int_macro.
  now rewrite Hm.
Qed.

(** X5 at a context in which only CONFIG_H is defined. *)
Lemma guard_collision_leaves_undefined_witness :
  is_Some (({["CONFIG_H" := TEmpty]} : gmap string token) !! "CONFIG_H")
  ∧ ({["CONFIG_H" := TEmpty]} : gmap string token) !! "WIFI_SSID" = None
  ∧ (Cpp.include Header.config_h {["CONFIG_H" := TEmpty]}
       ≫= Cpp.text_macro "WIFI_SSID") = Err (Undefined "WIFI_SSID")
  ∧ (Cpp.include Header.config_h {["CONFIG_H" := TEmpty]}
       ≫= Cpp.int_macro "WIFI_SSID") = Err (Undefined "WIFI_SSID").
Proof.
  assert (is_Some (({["CONFIG_H" := TEmpty]} : gmap string token)
                     !! "CONFIG_H")) as Hg
    by (exists TEmpty; vm_compute; reflexivity).
  assert (({["CONFIG_H" := TEmpty]} : gmap string token)
            !! "WIFI_SSID" = None) as Hm by (vm_compute; reflexivity).
  split; [exact Hg|]. split; [exact Hm|].
  exact (guard_collision_leaves_undefined _ _ Hg Hm).
Defined.

(** X7. Of two copies of the header included one after the other, the
    first one wins: the second inclusion changes nothing, and the
    configuration read afterwards is the one of the first copy. *)
Theorem first_copy_wins (c1 c2 : DeviceConfig) (env : gmap string token) :
  env !! "CONFIG_H" = None →
  (Cpp.include (Header_template.config_h_with c1) env
     ≫= Cpp.include (Header_template.config_h_with c2))
  = Cpp.include (Header_template.config_h_with c1) env
  ∧ ((Cpp.include (Header_template.config_h_with c1) env
        ≫= Cpp.include (Header_template.config_h_with c2))
       ≫= get_configuration)
    = Ok c1.
Proof.
  intros Hg.
  assert ((Cpp.include (Header_template.config_h_with c1) env
             ≫= Cpp.include (Header_template.config_h_with c2))
          = Cpp.include (Header_template.config_h_with c1) env) as Hsame.
  { rewrite (config_h_with_guarded c1), (config_h_with_guarded c2).
    rewrite include_guarded_header by reflexivity.
    cbn [mbind result_bind].
    rewrite include_guarded_header by reflexivity.
    rewrite Hg.
    destruct (define_all_is_Some
                (guarded_body (Header_template.config_h_with c1))
                (<["CONFIG_H" := TEmpty]> env) "CONFIG_H") as [w Hw].
    - rewrite lookup_insert_eq. eauto.
    - now rewrite Hw. }
  split; [exact Hsame|].
  rewrite Hsame. apply filled_in_copy_reads_back_aux, Hg.
Qed.

(** X7 at the shipped header followed by a filled-in copy. *)
Lemma first_copy_wins_witness :
  (∅ : gmap string token) !! "CONFIG_H" = None
  ∧ (Cpp.include (Header_template.config_h_with Header_template.shipped) ∅
       ≫= Cpp.include (Header_template.config_h_with home_deployment))
    = Cpp.include (Header_template.config_h_with Header_template.shipped) ∅
  ∧ ((Cpp.include (Header_template.config_h_with Header_template.shipped) ∅
        ≫= Cpp.include (Header_template.config_h_with home_deployment))
       ≫= get_configuration)
    = Ok Header_template.shipped.
Proof.
  assert ((∅ : gmap string token) !! "CONFIG_H" = None) as Hg
    by reflexivity.
  split; [exact Hg|].
  exact (first_copy_wins Header_template.shipped home_deployment ∅ Hg).
Defined.

(** * Inclusion with redefinitions refused *)

Section Strict_headers.

Import Cpp.

Lemma strict_preprocess_skip_defines (ds rest : list directive)
    (env : gmap string token) (a k : nat) :
  forallb is_define ds = true →
  Strict.preprocess (ds ++ rest) (mkState env a (S k))
  = Strict.preprocess rest (mkState env a (S k)).
Proof.
  induction ds as [|d ds IH]; intros Hds; [reflexivity|].
  apply andb_prop in Hds as [Hd Hds].
  destruct d as [m|m body|]; try discriminate Hd.
  cbn [app Strict.preprocess Strict.directive_step skipped mbind result_bind].
  apply IH, Hds.
Qed.

(** Definitions of names the table does not hold yet go through, one by
    one, as in the default preprocessor. *)
Lemma strict_preprocess_defines (ds rest : list directive)
    (env : gmap string token) (a : nat) :
  forallb is_define ds = true →
  NoDup (defined_names ds) →
  (∀ m, m ∈ defined_names ds → env !! m = None) →
  Strict.preprocess (ds ++ rest) (mkState env a 0)
  = Strict.preprocess rest (mkState (define_all ds env) a 0).
Proof.
  revert env. induction ds as [|d ds IH]; intros env Hds Hnd Hfree;
    [reflexivity|].
  apply andb_prop in Hds as [Hd Hds].
  destruct d as [m|m body|]; try discriminate Hd.
  cbn in Hnd. apply NoDup_cons in Hnd as [Hm Hnd].
  cbn [app Strict.preprocess Strict.directive_step skipped macros active
       define_all].
  rewrite (Hfree m) by (cbn; left).
  cbn [mbind result_bind]. apply IH; [exact Hds | exact Hnd |].
  intros m' Hm'. rewrite lookup_insert_ne by (intros ->; exact (Hm Hm')).
  apply Hfree. cbn. right. exact Hm'.
Qed.

(** A definition that clashes with the table stops the preprocessor, with
    an error naming a macro that clashes. *)
Lemma strict_preprocess_clash (ds rest : list directive)
    (env : gmap string token) (a : nat) :
  forallb is_define ds = true →
  NoDup (defined_names ds) →
  (∃ m body old, Define m body ∈ ds ∧ env !! m = Some old ∧ old ≠ body) →
  ∃ m body old,
    Define m body ∈ ds ∧ env !! m = Some old ∧ old ≠ body
    ∧ Strict.preprocess (ds ++ rest) (mkState env a 0) = Err (Redefined m).
Proof.
  revert env. induction ds as [|d ds IH];
    intros env Hds Hnd (m & body & old & Hin & Hold & Hne).
  { now apply elem_of_nil in Hin. }
  apply andb_prop in Hds as [Hd Hds].
  destruct d as [g|m0 body0|]; try discriminate Hd.
  cbn in Hnd. apply NoDup_cons in Hnd as [Hm0 Hnd].
  cbn [app Strict.preprocess Strict.directive_step skipped macros active].
  destruct (env !! m0) as [old0|] eqn:E0.
  - destruct (decide (old0 = body0)) as [Heq|Hdiff].
    + cbn [mbind result_bind].
      apply elem_of_cons in Hin as [Hhead|Htail].
      { inversion Hhead; subst. rewrite E0 in Hold. congruence. }
      destruct (IH env Hds Hnd) as (m' & b' & o' & Hin' & Ho' & Hne' & Hr).
      { exists m, body, old. auto. }
      exists m', b', o'. repeat split; auto. now right.
    + exists m0, body0, old0. repeat split; auto. now left.
  - cbn [mbind result_bind].
    apply elem_of_cons in Hin as [Hhead|Htail].
    { inversion Hhead; subst. rewrite E0 in Hold. discriminate Hold. }
    assert (∀ x b, Define x b ∈ ds → x ≠ m0) as Hfresh.
    { intros x b Hx ->. apply Hm0. unfold defined_names.
      apply list_elem_of_In, in_flat_map. exists (Define m0 b).
      split; [now apply list_elem_of_In | now left]. }
    destruct (IH (<[m0 := body0]> env) Hds Hnd)
      as (m' & b' & o' & Hin' & Ho' & Hne' & Hr).
    { exists m, body, old. repeat split; auto.
      rewrite lookup_insert_ne; [exact Hold|].
      intros ->. now apply (Hfresh m body). }
    exists m', b', o'. repeat split; auto; [now right|].
    rewrite lookup_insert_ne in Ho'; [exact Ho'|].
    intros ->. now apply (Hfresh m' b').
Qed.

Lemma strict_include_guarded_skip (g : string) (ds : list directive)
    (env : gmap string token) :
  forallb is_define ds = true →
  is_Some (env !! g) →
  Strict.include (guarded g ds) env = Ok env.
Proof.
  intros Hds [v Hv]. unfold Strict.include, guarded.
  cbn [Strict.preprocess Strict.directive_step directive_step skipped macros
       active].
  rewrite Hv.
  cbn [Strict.preprocess Strict.directive_step skipped mbind result_bind].
  rewrite strict_preprocess_skip_defines by exact Hds. reflexivity.
Qed.

Lemma strict_include_guarded_fresh (g : string) (ds : list directive)
    (env : gmap string token) :
  forallb is_define ds = true →
  NoDup (g :: defined_names ds) →
  env !! g = None →
  (∀ m, m ∈ defined_names ds → env !! m = None) →
  Strict.include (guarded g ds) env
  = Ok (define_all ds (<[g := TEmpty]> env)).
Proof.
  intros Hds Hnd Hg Hfree. apply NoDup_cons in Hnd as [Hgds Hnd].
  unfold Strict.include, guarded.
  cbn [Strict.preprocess Strict.directive_step directive_step skipped macros
       active].
  rewrite Hg. cbn [mbind result_bind skipped macros active].
  rewrite Hg. cbn [mbind result_bind].
  rewrite strict_preprocess_defines; [reflexivity | exact Hds | exact Hnd |].
  intros m Hm. rewrite lookup_insert_ne by (intros ->; exact (Hgds Hm)).
  now apply Hfree.
Qed.

Lemma strict_include_guarded_clash (g : string) (ds : list directive)
    (env : gmap string token) :
  forallb is_define ds = true →
  NoDup (g :: defined_names ds) →
  env !! g = None →
  (∃ m body old, Define m body ∈ ds ∧ env !! m = Some old ∧ old ≠ body) →
  ∃ m body old,
    Define m body ∈ ds ∧ env !! m = Some old ∧ old ≠ body
    ∧ Strict.include (guarded g ds) env = Err (Redefined m).
Proof.
  intros Hds Hnd Hg (m & body & old & Hin & Hold & Hne).
  apply NoDup_cons in Hnd as [Hgds Hnd].
  assert (∀ x b, Define x b ∈ ds → x ≠ g) as Hfresh.
  { intros x b Hx ->. apply Hgds. unfold defined_names.
    apply list_elem_of_In, in_flat_map. exists (Define g b).
    split; [now apply list_elem_of_In | now left]. }
  destruct (strict_preprocess_clash ds [Endif] (<[g := TEmpty]> env) 1
              Hds Hnd) as (m' & b' & o' & Hin' & Ho' & Hne' & Hr).
  { exists m, body, old. repeat split; auto.
    rewrite lookup_insert_ne; [exact Hold|].
    intros ->. now apply (Hfresh m body). }
  exists m', b', o'. repeat split; auto.
  - rewrite lookup_insert_ne in Ho'; [exact Ho'|].
    intros ->. now apply (Hfresh m' b').
  - unfold Strict.include, guarded.
    cbn [Strict.preprocess Strict.directive_step directive_step skipped
         macros active].
    rewrite Hg. cbn [mbind result_bind skipped macros active].
    rewrite Hg. cbn [mbind result_bind].
    now rewrite Hr.
Qed.

End Strict_headers.

Lemma documented_macros_NoDup : NoDup ("CONFIG_H" :: documented_macros).
Proof.
  apply (bool_decide_unpack (NoDup ("CONFIG_H" :: documented_macros))).
  vm_compute. exact I.
Qed.

Lemma Forall_documented (env : gmap string token) :
  Forall (λ m, env !! m = None) documented_macros →
  ∀ m, m ∈ documented_macros → env !! m = None.
Proof. intros H. now apply Forall_forall. Qed.

(** X1. In every context free of clashes (CONFIG_H already defined, or
    none of the fifteen names defined yet) the preprocessor that refuses
    redefinitions accepts config.h too, with the same result as the default
    one: the table unchanged behind the guard, and otherwise the earlier
    table with the guard and the fifteen macros of the header added. *)
Theorem include_config_h_without_clash (env : gmap string token) :
  (env !! "CONFIG_H" = None →
   Forall (λ m, env !! m = None) documented_macros) →
  Strict.include Header.config_h env
  = Ok (match env !! "CONFIG_H" with
        | Some _ => env
        | None => macro_table ∪ env
        end)
  ∧ Cpp.include Header.config_h env = Strict.include Header.config_h env.
Proof.
  intros Hfree.
  assert (Strict.include Header.config_h env
          = Ok (match env !! "CONFIG_H" with
                | Some _ => env
                | None => macro_table ∪ env
                end)) as Hstrict.
  { rewrite config_h_guarded.
    destruct (env !! "CONFIG_H") as [v|] eqn:Hg.
    - apply strict_include_guarded_skip; [reflexivity|]. rewrite Hg. eauto.
    - rewrite strict_include_guarded_fresh;
        [| reflexivity | exact documented_macros_NoDup | exact Hg
         | exact (Forall_documented env (Hfree eq_refl)) ].
      rewrite macro_table_defines, <- define_all_union, <- insert_union_l.
      now rewrite (left_id_L ∅ (∪)). }
  split; [exact Hstrict|].
  now rewrite Hstrict, include_config_h_default.
Qed.

(** X1 at a context that defines only LED_PIN. *)
Lemma include_config_h_without_clash_witness :
  (({["LED_PIN" := TInt 2]} : gmap string token) !! "CONFIG_H" = None →
   Forall (λ m, ({["LED_PIN" := TInt 2]} : gmap string token) !! m = None)
     documented_macros)
  ∧ Strict.include Header.config_h {["LED_PIN" := TInt 2]}
    = Ok (match ({["LED_PIN" := TInt 2]} : gmap string token) !! "CONFIG_H"
          with
          | Some _ => {["LED_PIN" := TInt 2]}
          | None => macro_table ∪ {["LED_PIN" := TInt 2]}
          end)
  ∧ Cpp.include Header.config_h {["LED_PIN" := TInt 2]}
    = Strict.include Header.config_h {["LED_PIN" := TInt 2]}.
Proof.
  assert (({["LED_PIN" := TInt 2]} : gmap string token) !! "CONFIG_H" = None
          → Forall (λ m, ({["LED_PIN" := TInt 2]} : gmap string token) !! m
                         = None) documented_macros) as H
    by (intros _; repeat constructor; vm_compute; reflexivity).
  split; [exact H|].
  exact (include_config_h_without_clash _ H).
Defined.

(** X3. Where CONFIG_H is not defined yet and the context has defined one
    of the macros of config.h with another replacement list, the
    preprocessor that refuses redefinitions rejects the inclusion, with an
    error that names a macro of the header on which context and header
    disagree. *)
Theorem include_rejects_redefinition
    (env : gmap string token) (m : string) (body old : token) :
  env !! "CONFIG_H" = None →
  Define m body ∈ Header.config_h →
  env !! m = Some old →
  old ≠ body →
  ∃ (m' : string) (body' old' : token),
    Define m' body' ∈ Header.config_h
    ∧ env !! m' = Some old' ∧ old' ≠ body'
    ∧ m' ∈ documented_macros
    ∧ Strict.include Header.config_h env = Err (Redefined m').
Proof.
  intros Hg Hin Hold Hne.
  assert (Define m body ∈ guarded_body Header.config_h) as Hbody.
  { apply elem_of_cons in Hin as [Hhead|Hin]; [discriminate Hhead|].
    apply elem_of_cons in Hin as [Hhead|Hin].
    { inversion Hhead; subst. rewrite Hg in Hold. discriminate Hold. }
    change (Define m body ∈ (guarded_body Header.config_h ++ [Endif])%list)
      in Hin.
    apply elem_of_app in Hin as [Hin|Hin]; [exact Hin|].
    apply list_elem_of_singleton in Hin. discriminate Hin. }
  destruct (strict_include_guarded_clash "CONFIG_H"
              (guarded_body Header.config_h) env eq_refl
              documented_macros_NoDup Hg)
    as (m' & b' & o' & Hin' & Ho' & Hne' & Hr).
  { exists m, body, old. auto. }
  exists m', b', o'.
  split; [|split; [exact Ho'|split; [exact Hne'|split; [|exact Hr]]]].
  - rewrite config_h_guarded. unfold guarded.
    do 2 right. apply elem_of_app. now left.
  - change documented_macros
      with (defined_names (guarded_body Header.config_h)).
    unfold defined_names. apply list_elem_of_In, in_flat_map.
    exists (Define m' b'). split; [now apply list_elem_of_In | now left].
Qed.

(** X3 at a context that had set FALL_SENSITIVITY to 9. *)
Lemma include_rejects_redefinition_witness :
  ({["FALL_SENSITIVITY" := TInt 9]} : gmap string token) !! "CONFIG_H" = None
  ∧ Define "FALL_SENSITIVITY" (TInt 3) ∈ Header.config_h
  ∧ ({["FALL_SENSITIVITY" := TInt 9]} : gmap string token)
      !! "FALL_SENSITIVITY" = Some (TInt 9)
  ∧ TInt 9 ≠ TInt 3
  ∧ ∃ (m' : string) (body' old' : token),
      Define m' body' ∈ Header.config_h
      ∧ ({["FALL_SENSITIVITY" := TInt 9]} : gmap string token) !! m'
        = Some old'
      ∧ old' ≠ body'
      ∧ m' ∈ documented_macros
      ∧ Strict.include Header.config_h {["FALL_SENSITIVITY" := TInt 9]}
        = Err (Redefined m').
Proof.
  assert (({["FALL_SENSITIVITY" := TInt 9]} : gmap string token)
            !! "CONFIG_H" = None) as Hg by (vm_compute; reflexivity).
  assert (Define "FALL_SENSITIVITY" (TInt 3) ∈ Header.config_h) as Hin
    by (unfold Header.config_h; repeat constructor).
  assert (({["FALL_SENSITIVITY" := TInt 9]} : gmap string token)
            !! "FALL_SENSITIVITY" = Some (TInt 9)) as Hold
    by (vm_compute; reflexivity).
  assert (TInt 9 ≠ TInt 3) as Hne by discriminate.
  split; [exact Hg|]. split; [exact Hin|].
  split; [exact Hold|]. split; [exact Hne|].
  exact (include_rejects_redefinition _ _ _ _ Hg Hin Hold Hne).
Defined.

(** X6. A filled-in copy of the header reads back as the record it was
    filled with in every context that has defined neither CONFIG_H nor any
    of the fifteen names, also under the preprocessor that refuses
    redefinitions. *)
Theorem filled_in_copy_reads_back (c : DeviceConfig)
    (env : gmap string token) :
  env !! "CONFIG_H" = None →
  Forall (λ m, env !! m = None) documented_macros →
  (Strict.include (Header_template.config_h_with c) env
     ≫= get_configuration)
  = Ok c.
Proof.
  intros Hg Hfree.
  rewrite config_h_with_guarded.
  rewrite strict_include_guarded_fresh;
    [| reflexivity | exact documented_macros_NoDup | exact Hg
     | exact (Forall_documented env Hfree) ].
  cbn [mbind result_bind].
  rewrite <- (left_id_L ∅ (∪) env) at 1.
  rewrite insert_union_l, define_all_union.
  apply get_configuration_config_h_with.
Qed.

(** X6 at a context that defines only LED_PIN. *)
Lemma filled_in_copy_reads_back_witness :
  ({["LED_PIN" := TInt 2]} : gmap string token) !! "CONFIG_H" = None
  ∧ Forall (λ m, ({["LED_PIN" := TInt 2]} : gmap string token) !! m = None)
      documented_macros
  ∧ (Strict.include (Header_template.config_h_with home_deployment)
       {["LED_PIN" := TInt 2]}
       ≫= get_configuration)
    = Ok home_deployment.
Proof.
  assert (({["LED_PIN" := TInt 2]} : gmap string token) !! "CONFIG_H" = None)
    as Hg by (vm_compute; reflexivity).
  assert (Forall (λ m, ({["LED_PIN" := TInt 2]} : gmap string token) !! m
                       = None) documented_macros) as Hfree
    by (repeat constructor; vm_compute; reflexivity).
  split; [exact Hg|]. split; [exact Hfree|].
  exact (filled_in_copy_reads_back home_deployment _ Hg Hfree).
Defined.
